(** * The generation relay of [App/main.py]

    A shallow embedding of [generate_text] and of the module start-up code
    that creates [ollama_cloud_client], together with the parts of Python,
    of [requests] and of the [ollama] client that the function relies on:
    substring test, [str.replace], subscripting, [str()]/[repr()] of the
    values [json] produces, and [Response.raise_for_status]. *)

From Stdlib Require Import String Ascii List ZArith NArith Bool Lia DecimalString.
From Equations Require Import Equations.
From Equations.Prop Require Import Logic.
Import ListNotations.

Open Scope string_scope.

(** ** Python strings

    A Python [str] is modelled as a Rocq [string]; each character stands for
    the code point of the same number (0..255). *)

Module PyStr.

(** [strip_prefix p s] is [Some rest] when [s = p ++ rest]
    (the test behind [s.startswith(p)]). *)
Fixpoint strip_prefix (p s : string) : option string :=
  match p, s with
  | EmptyString, _ => Some s
  | String a p', String b s' =>
      if Ascii.eqb a b then strip_prefix p' s' else None
  | String _ _, EmptyString => None
  end.

(** [sub in s] on two strings: [sub] occurs in [s] as a contiguous block. *)
Fixpoint str_in (sub s : string) : bool :=
  match strip_prefix sub s with
  | Some _ => true
  | None =>
      match s with
      | EmptyString => false
      | String _ s' => str_in sub s'
      end
  end.

(** The declarative reading of "occurs in". *)
Definition Occurs (sub s : string) : Prop :=
  exists a b, s = a ++ sub ++ b.

(** [s.replace("", new)]: [new] is put before every character and at the end. *)
Fixpoint interleave (new s : string) : string :=
  new ++ match s with
         | EmptyString => EmptyString
         | String c s' => String c (interleave new s')
         end.

(** [s.replace(old, new)] for a non-empty [old = String a p]: scan from the
    left; at an occurrence of [old] emit [new] and go on after the
    occurrence, otherwise copy one character. *)
Equations? replace_scan (a : ascii) (p new s : string) : string
  by wf (String.length s) lt :=
  replace_scan a p new EmptyString := EmptyString;
  replace_scan a p new (String c s')
    with inspect (strip_prefix (String a p) (String c s')) := {
    | exist _ (Some rest) _ => new ++ replace_scan a p new rest;
    | exist _ None _ => String c (replace_scan a p new s') }.
Proof.
  enough (G : forall q t r, strip_prefix q t = Some r ->
                            String.length r <= String.length t).
  { simpl in e. destruct (Ascii.eqb a c); [|discriminate].
    apply G in e. lia. }
  clear. induction q as [|b q IH]; intros [|d t] r H; simpl in H;
    try discriminate; try (injection H as <-; lia).
  destruct (Ascii.eqb b d); [|discriminate]. apply IH in H. simpl. lia.
Qed.

(** [s.replace(old, new)]: every non-overlapping occurrence, left to right. *)
Definition str_replace (s old new : string) : string :=
  match old with
  | EmptyString => interleave new s
  | String a p => replace_scan a p new s
  end.

(** The truth value of an optional string: [None] and [""] are false. *)
Definition truthy (s : option string) : bool :=
  match s with
  | None => false
  | Some EmptyString => false
  | Some (String _ _) => true
  end.

(** [join sep l] is [sep.join(l)]. *)
Fixpoint join (sep : string) (l : list string) : string :=
  match l with
  | [] => EmptyString
  | [x] => x
  | x :: l' => x ++ sep ++ join sep l'
  end.

Definition hex_digit (n : N) : ascii :=
  ascii_of_N (if (n <? 10)%N then 48 + n else 87 + n).

(** [str.isprintable] on the code points below 256. *)
Definition is_printable (c : ascii) : bool :=
  let n := N_of_ascii c in
  ((32 <=? n) && (n <? 127) || (161 <=? n) && negb (n =? 173))%N.

Definition repr_char (quote c : ascii) : string :=
  if Ascii.eqb c quote || Ascii.eqb c "\" then String "\" (String c EmptyString)
  else if Ascii.eqb c "009" then "\t"
  else if Ascii.eqb c "010" then "\n"
  else if Ascii.eqb c "013" then "\r"
  else if is_printable c then String c EmptyString
  else let n := N_of_ascii c in
       String "\" (String "x" (String (hex_digit (n / 16))
                              (String (hex_digit (n mod 16)) EmptyString))).

Fixpoint escape (quote : ascii) (s : string) : string :=
  match s with
  | EmptyString => EmptyString
  | String c s' => repr_char quote c ++ escape quote s'
  end.

(** [repr(s)] of a string: single quotes, unless the string has a single
    quote and no double quote. *)
Definition repr_str (s : string) : string :=
  let quote : ascii :=
    if str_in "'" s && negb (str_in (String "034" EmptyString) s)
    then "034"%char else "'"%char in
  String quote (escape quote s ++ String quote EmptyString).

(** [str(n)] of an integer. *)
Definition str_int (z : Z) : string := NilZero.string_of_int (Z.to_int z).

End PyStr.

Import PyStr.

(** ** Python values, exceptions and results *)

(** The values [json] decoding produces, which are also the values
    [generate_text] can return.  A [dict] is an association list in
    insertion order with distinct keys (JSON keys are strings); a [float] is
    carried by its [repr]. *)
#[warnings="-register-all"]
Inductive pyval : Type :=
| PNone
| PBool (b : bool)
| PInt (z : Z)
| PFloat (repr : string)
| PStr (s : string)
| PList (l : list pyval)
| PDict (d : list (string * pyval)).

(** The exceptions that can reach the handler of [generate_text]: those of
    [requests], of the JSON decoder, of the [ollama] client and of the
    subscript and membership operators.  All are subclasses of [Exception],
    which is what [except Exception] catches.  Each carries what [str(e)]
    shows, [KeyError] its key. *)
Inductive exn : Type :=
| KeyError (key : string)
| TypeError (msg : string)
| HTTPError (msg : string)
| RequestException (msg : string)
| JSONDecodeError (msg : string)
| ResponseError (msg : string)
| OtherException (msg : string).

(** [str(e)]. *)
Definition exn_str (e : exn) : string :=
  match e with
  | KeyError key => repr_str key
  | TypeError msg | HTTPError msg | RequestException msg
  | JSONDecodeError msg | ResponseError msg | OtherException msg => msg
  end.

(** A Python computation either returns or raises. *)
Inductive outcome (A : Type) : Type :=
| Return (a : A)
| Raise (e : exn).
Arguments Return {A} a.
Arguments Raise {A} e.

Definition type_name (v : pyval) : string :=
  match v with
  | PNone => "NoneType"
  | PBool _ => "bool"
  | PInt _ => "int"
  | PFloat _ => "float"
  | PStr _ => "str"
  | PList _ => "list"
  | PDict _ => "dict"
  end.

(** [repr(v)]. *)
Fixpoint py_repr (v : pyval) : string :=
  match v with
  | PNone => "None"
  | PBool true => "True"
  | PBool false => "False"
  | PInt z => str_int z
  | PFloat r => r
  | PStr s => repr_str s
  | PList l => "[" ++ join ", " (map py_repr l) ++ "]"
  | PDict d =>
      "{" ++ join ", " (map (fun kv => repr_str (fst kv) ++ ": " ++ py_repr (snd kv)) d)
          ++ "}"
  end.

(** [str(v)]: a string is itself, everything else is its [repr]. *)
Definition py_str (v : pyval) : string :=
  match v with
  | PStr s => s
  | _ => py_repr v
  end.

(** Lookup in a dict. *)
Fixpoint dict_get (d : list (string * pyval)) (k : string) : option pyval :=
  match d with
  | [] => None
  | (k', v) :: d' => if String.eqb k' k then Some v else dict_get d' k
  end.

(** [k in v] for a string [k]: key of a dict, element of a list, substring
    of a string; any other right operand is a [TypeError]. *)
Definition py_in (k : string) (v : pyval) : outcome bool :=
  match v with
  | PDict d => Return (match dict_get d k with Some _ => true | None => false end)
  | PList l =>
      Return (existsb (fun x => match x with
                                | PStr s => String.eqb s k
                                | _ => false
                                end) l)
  | PStr s => Return (str_in k s)
  | _ => Raise (TypeError ("argument of type '" ++ type_name v ++ "' is not iterable"))
  end.

(** [v[k]] for a string [k]. *)
Definition py_getitem (v : pyval) (k : string) : outcome pyval :=
  match v with
  | PDict d =>
      match dict_get d k with
      | Some x => Return x
      | None => Raise (KeyError k)
      end
  | PList _ => Raise (TypeError "list indices must be integers or slices, not str")
  | PStr _ => Raise (TypeError "string indices must be integers, not 'str'")
  | _ => Raise (TypeError ("'" ++ type_name v ++ "' object is not subscriptable"))
  end.

(** ** The process and the network *)

(** The [ollama.Client] handle: what it was built from. *)
Record Client : Type := {
  host : string;
  headers : list (string * string)
}.

(** A request sent to a backend. *)
Inductive call : Type :=
| Chat (client : Client) (model : string) (messages : pyval)
| Post (url : string) (json : pyval).

(** What [requests.post] hands back: status line, final url, and what
    [response.json()] does on the body. *)
Record Response : Type := {
  status_code : Z;
  reason : string;
  url : string;
  json : outcome pyval
}.

(** The two backends.  A reply may depend on the requests seen so far. *)
Record backend : Type := {
  chat_reply : list call -> Client -> string -> pyval -> outcome pyval;
  post_reply : list call -> string -> pyval -> outcome Response
}.

(** The module-level handle and the requests sent so far, oldest first. *)
Record state : Type := {
  ollama_cloud_client : option Client;
  wire : list call
}.

(** Computations that read the handle, talk to a backend and may raise. *)
Definition M (A : Type) : Type := state -> outcome A * state.

Definition ret {A} (a : A) : M A := fun st => (Return a, st).

Definition raise {A} (e : exn) : M A := fun st => (Raise e, st).

Definition bind {A B} (m : M A) (k : A -> M B) : M B :=
  fun st =>
    match m st with
    | (Return a, st') => k a st'
    | (Raise e, st') => (Raise e, st')
    end.

Definition lift {A} (o : outcome A) : M A := fun st => (o, st).

(** [try: body  except Exception as e: handler e]. *)
Definition try_except {A} (body : M A) (handler : exn -> M A) : M A :=
  fun st =>
    match body st with
    | (Return a, st') => (Return a, st')
    | (Raise e, st') => handler e st'
    end.

Declare Scope py_scope.
Delimit Scope py_scope with py.
Notation "x <- c ;; k" := (bind c (fun x => k))
  (at level 100, c at next level, right associativity) : py_scope.
Notation "c ;;; k" := (bind c (fun _ => k))
  (at level 100, right associativity) : py_scope.

(** Reading the global [ollama_cloud_client]. *)
Definition get_cloud_client : M (option Client) :=
  fun st => (Return (ollama_cloud_client st), st).

(** Sending one request: it is recorded on the wire and the backend answers. *)
Definition send {A} (c : call) (reply : list call -> outcome A) : M A :=
  fun st =>
    (reply (wire st),
     {| ollama_cloud_client := ollama_cloud_client st;
        wire := (wire st ++ [c])%list |}).

(** [Response.raise_for_status] of [requests]: [HTTPError] for a status in
    400..599, nothing otherwise. *)
Definition raise_for_status (r : Response) : outcome unit :=
  if (400 <=? status_code r)%Z && (status_code r <? 500)%Z then
    Raise (HTTPError (str_int (status_code r) ++ " Client Error: " ++ reason r
                        ++ " for url: " ++ url r))
  else if (500 <=? status_code r)%Z && (status_code r <? 600)%Z then
    Raise (HTTPError (str_int (status_code r) ++ " Server Error: " ++ reason r
                        ++ " for url: " ++ url r))
  else Return tt.

(** ** Module start-up (lines 8-27) *)

(** [Client(host=..., headers=...)]. *)
Definition Client_new (h : string) (hs : list (string * string)) : outcome Client :=
  Return {| host := h; headers := hs |}.

(** The value bound to [ollama_cloud_client] when the module is loaded with
    [os.environ.get('OLLAMA_API_KEY')] equal to [api_key]. *)
Definition init_cloud_client (api_key : option string) : option Client :=
  if negb (truthy api_key) then None
  else
    match api_key with
    | Some key =>
        match Client_new "https://ollama.com" [("Authorization", "Bearer " ++ key)] with
        | Return c => Some c
        | Raise _ => None
        end
    | None => None
    end.

Definition startup (api_key : option string) : state :=
  {| ollama_cloud_client := init_cloud_client api_key; wire := [] |}.

(** ** [generate_text] (lines 33-70) *)

Definition LOCAL_OLLAMA_ENDPOINT : string := "http://localhost:11434/api/generate".

Section Relay.

Variable B : backend.

Open Scope py_scope.

(** [ollama_cloud_client.chat(model, messages=messages)]. *)
Definition Client_chat (c : Client) (model : string) (messages : pyval) : M pyval :=
  send (Chat c model messages) (fun seen => chat_reply B seen c model messages).

(** [requests.post(url, json=data)]. *)
Definition requests_post (u : string) (data : pyval) : M Response :=
  send (Post u data) (fun seen => post_reply B seen u data).

(** Lines 41-48: the body of [if 'cloud' in model_name:]. *)
Definition cloud_branch (prompt model_name : string) : M pyval :=
  client <- get_cloud_client ;;
  match client with
  | None => ret (PStr "Error: OLLAMA_API_KEY not set in .env file.")
  | Some c =>
      let messages := PList [PDict [("role", PStr "user"); ("content", PStr prompt)]] in
      response <- Client_chat c (str_replace model_name "-cloud" EmptyString) messages ;;
      message <- lift (py_getitem response "message") ;;
      lift (py_getitem message "content")
  end.

(** Lines 50-67: the local Ollama API. *)
Definition local_branch (prompt model_name : string) : M pyval :=
  let data := PDict [("model", PStr model_name);
                     ("prompt", PStr prompt);
                     ("stream", PBool false)] in
  response <- requests_post LOCAL_OLLAMA_ENDPOINT data ;;
  lift (raise_for_status response) ;;;
  res_json <- lift (json response) ;;
  has_response <- lift (py_in "response" res_json) ;;
  if has_response then lift (py_getitem res_json "response")
  else
    has_text <- lift (py_in "text" res_json) ;;
    if has_text then lift (py_getitem res_json "text")
    else ret (PStr (py_str res_json)).

(** Lines 39-67: the body of the [try]. *)
Definition dispatch (prompt model_name : string) : M pyval :=
  if str_in "cloud" model_name then cloud_branch prompt model_name
  else local_branch prompt model_name.

(** Line 70: the handler. *)
Definition on_exception (e : exn) : M pyval :=
  ret (PStr ("An error occurred: " ++ exn_str e)).

Definition generate_text (prompt : option string) (model_name : string) : M pyval :=
  match prompt with
  | None | Some EmptyString => ret (PStr "Please enter a prompt.")
  | Some prompt => try_except (dispatch prompt model_name) on_exception
  end.

End Relay.

(** ** The spec's reading of two steps, for comparison with the code *)

(** "The model identifier with only a trailing suffix stripped". *)
Fixpoint spec_strip_suffix (s suffix : string) : string :=
  if String.eqb s suffix then EmptyString
  else
    match s with
    | EmptyString => EmptyString
    | String c s' => String c (spec_strip_suffix s' suffix)
    end.

(** "A field named [k] is present" in a parsed JSON body. *)
Definition field (k : string) (body : pyval) : option pyval :=
  match body with
  | PDict d => dict_get d k
  | _ => None
  end.

(** "If a field named response is present, return its value; else if a field
    named text is present, return its value; else return the entire parsed
    JSON body converted to its text representation". *)
Definition spec_normalize (body : pyval) : pyval :=
  match field "response" body with
  | Some v => v
  | None =>
      match field "text" body with
      | Some v => v
      | None => PStr (py_str body)
      end
  end.

(** "A string starting with [p]". *)
Definition starts_with (p : string) (v : pyval) : Prop :=
  exists rest, v = PStr (p ++ rest).

(** The backend answers the same at two histories. *)
Definition same_replies (B : backend) (h h' : list call) : Prop :=
  (forall c model messages,
      chat_reply B h c model messages = chat_reply B h' c model messages) /\
  (forall u data, post_reply B h u data = post_reply B h' u data).

Definition is_chat (c : call) : bool :=
  match c with Chat _ _ _ => true | Post _ _ => false end.

(** ** The interface (lines 76-104) *)

(** [gr.Dropdown(choices=..., value=..., label=...)]. *)
Record Dropdown : Type := {
  choices : list string;
  value : string;
  label : string
}.

Definition model_dropdown : Dropdown :=
  {| choices := ["gemma:2b"; "stable-code:3b"; "phi3:3.8b"; "gpt-oss:120b-cloud"];
     value := "gemma:2b";
     label := "Select Model" |}.

(** [gui] has [fn=generate_text]: every submission of the form is one call
    with the textbox's prompt and the selected model.  [serve] runs a list of
    submissions one after the other and collects what each call gives. *)
Fixpoint serve (B : backend) (submissions : list (option string * string))
    (st : state) : list (outcome pyval) * state :=
  match submissions with
  | [] => ([], st)
  | (prompt, model_name) :: rest =>
      let (out, st1) := generate_text B prompt model_name st in
      let (outs, st2) := serve B rest st1 in
      (out :: outs, st2)
  end.

(** The request [c] carries the prompt [p] as it was given: as the content of
    the single user message, or as the "prompt" member of the posted body. *)
Definition carries_prompt (p : string) (c : call) : Prop :=
  match c with
  | Chat _ _ messages =>
      messages = PList [PDict [("role", PStr "user"); ("content", PStr p)]]
  | Post _ data => field "prompt" data = Some (PStr p)
  end.

(** Whether a submission leads to a request, given the handle. *)
Definition reaches_backend (client : option Client)
    (submission : option string * string) : bool :=
  truthy (fst submission)
  && (negb (str_in "cloud" (snd submission))
      || match client with Some _ => true | None => false end).

(** ** Sample backends and states *)

Module Sample.

(** A backend that gives the same two answers whatever it is asked. *)
Definition fixed (c : outcome pyval) (r : outcome Response) : backend :=
  {| chat_reply := fun _ _ _ _ => c; post_reply := fun _ _ _ => r |}.

Definition offline : backend :=
  fixed (Raise (RequestException "Failed to connect to Ollama."))
        (Raise (RequestException "Connection refused")).

Definition http (status : Z) (why : string) (body : outcome pyval) : outcome Response :=
  Return {| status_code := status; reason := why;
            url := LOCAL_OLLAMA_ENDPOINT; json := body |}.

Definition local (status : Z) (why : string) (body : pyval) : backend :=
  fixed (Raise (RequestException "Failed to connect to Ollama."))
        (http status why (Return body)).

Definition cloud (reply : pyval) : backend :=
  fixed (Return reply) (Raise (RequestException "Connection refused")).

Definition assistant (content : pyval) : pyval :=
  PDict [("model", PStr "gpt-oss:120b");
         ("message", PDict [("role", PStr "assistant"); ("content", content)])].

Definition with_key : state := startup (Some "secret").
Definition without_key : state := startup None.

Definition key_client : Client :=
  {| host := "https://ollama.com"; headers := [("Authorization", "Bearer secret")] |}.

End Sample.

(** * Facts about the string operations *)

Module StrFacts.

Lemma strip_prefix_spec (p s r : string) :
  strip_prefix p s = Some r <-> s = p ++ r.
Proof.
  revert s. induction p as [|a p IH]; intros s; simpl.
  - split; [intros [= ->]; reflexivity | intros ->; reflexivity].
  - destruct s as [|b s].
    + split; discriminate.
    + destruct (Ascii.eqb_spec a b) as [->|Hab].
      * rewrite IH. split; [intros ->; reflexivity | intros [= ->]; reflexivity].
      * split; [discriminate | intros [= E _]; congruence].
Qed.

Lemma strip_prefix_app (p r : string) : strip_prefix p (p ++ r) = Some r.
Proof. apply strip_prefix_spec. reflexivity. Qed.

Lemma append_assoc (a b c : string) : (a ++ b) ++ c = a ++ b ++ c.
Proof. induction a as [|x a IH]; simpl; [reflexivity | now rewrite IH]. Qed.

Lemma append_nil_r (a : string) : a ++ EmptyString = a.
Proof. induction a as [|x a IH]; simpl; [reflexivity | now rewrite IH]. Qed.

(** The substring test decides "occurs in". *)
Lemma str_in_Occurs (sub s : string) : str_in sub s = true <-> Occurs sub s.
Proof.
  induction s as [|c s IH]; simpl.
  - destruct (strip_prefix sub EmptyString) as [r|] eqn:E.
    + split; [intros _ | reflexivity].
      apply strip_prefix_spec in E. exists EmptyString, r. exact E.
    + split; [discriminate|]. intros (a & b & H).
      destruct a as [|x a]; simpl in H.
      * apply strip_prefix_spec in H. congruence.
      * discriminate.
  - destruct (strip_prefix sub (String c s)) as [r|] eqn:E.
    + split; [intros _ | reflexivity].
      apply strip_prefix_spec in E. exists EmptyString, r. exact E.
    + rewrite IH. split.
      * intros (a & b & ->). exists (String c a), b. reflexivity.
      * intros (a & b & H). destruct a as [|x a]; simpl in H.
        -- apply strip_prefix_spec in H. congruence.
        -- injection H as _ ->. exists a, b. reflexivity.
Qed.

Lemma str_in_absent (sub s : string) : str_in sub s = false <-> ~ Occurs sub s.
Proof.
  rewrite <- str_in_Occurs. destruct (str_in sub s); split; congruence.
Qed.

(** Where [old] does not occur, [replace] changes nothing. *)
Lemma replace_scan_absent (a : ascii) (p new s : string) :
  str_in (String a p) s = false -> replace_scan a p new s = s.
Proof.
  induction s as [|c s IH]; intros H; simp replace_scan; [reflexivity|].
  change (str_in (String a p) (String c s))
    with (match strip_prefix (String a p) (String c s) with
          | Some _ => true
          | None => str_in (String a p) s
          end) in H.
  destruct (inspect (strip_prefix (String a p) (String c s))) as [[r|] E];
    rewrite E in H; [discriminate|].
  simpl. rewrite (IH H). reflexivity.
Qed.

Lemma str_replace_absent (s old new : string) :
  str_in old s = false -> str_replace s old new = s.
Proof.
  destruct old as [|a p]; simpl.
  - destruct s; discriminate.
  - apply replace_scan_absent.
Qed.

(** The marker with its separator has no proper overlap with itself: an
    occurrence that starts inside [y] and reaches into an appended
    ["-cloud"] lies inside [y]. *)
Lemma cloud_prefix_app (y r : string) :
  strip_prefix "-cloud" (y ++ "-cloud") = Some r ->
  y = EmptyString \/ exists r', strip_prefix "-cloud" y = Some r'.
Proof.
  destruct y as [|c1 [|c2 [|c3 [|c4 [|c5 [|c6 y]]]]]];
    cbn [append strip_prefix]; intros H;
    try (left; reflexivity); right;
    repeat match type of H with
           | context [Ascii.eqb ?a ?b] =>
               destruct (Ascii.eqb_spec a b) as [E|E];
               [first [discriminate E | subst; cbn [strip_prefix] in H]
               | discriminate H]
           end.
  eexists. reflexivity.
Qed.

(** Where ["-cloud"] occurs only as the trailing suffix, [replace] strips
    exactly that suffix. *)
Lemma replace_trailing_cloud (x : string) :
  str_in "-cloud" x = false ->
  str_replace (x ++ "-cloud") "-cloud" EmptyString = x.
Proof.
  unfold str_replace. induction x as [|c x IH]; intros H.
  - reflexivity.
  - change (str_in "-cloud" (String c x))
      with (match strip_prefix "-cloud" (String c x) with
            | Some _ => true
            | None => str_in "-cloud" x
            end) in H.
    destruct (strip_prefix "-cloud" (String c x)) as [r|] eqn:E; [discriminate|].
    change (String c x ++ "-cloud") with (String c (x ++ "-cloud")).
    simp replace_scan.
    destruct (inspect (strip_prefix "-cloud" (String c (x ++ "-cloud"))))
      as [[r|] E'].
    + pose proof (cloud_prefix_app (String c x) r E') as [F|[r' F]];
        [discriminate | congruence].
    + simpl. rewrite (IH H). reflexivity.
Qed.

End StrFacts.

Import StrFacts.

(** * Facts about the start-up code *)

(** Without a key in the environment (unset or empty) no handle is created. *)
Lemma init_cloud_client_without_key (api_key : option string) :
  truthy api_key = false -> init_cloud_client api_key = None.
Proof.
  intros H. unfold init_cloud_client. rewrite H. reflexivity.
Qed.

(** With a key, the handle carries the host and the bearer header. *)
Lemma init_cloud_client_with_key (api_key : option string) :
  truthy api_key = true ->
  exists key,
    api_key = Some key
    /\ init_cloud_client api_key
       = Some {| host := "https://ollama.com";
                 headers := [("Authorization", "Bearer " ++ key)] |}.
Proof.
  intros H. unfold init_cloud_client. rewrite H.
  destruct api_key as [key|]; [|discriminate]. exists key. split; reflexivity.
Qed.

(** * Facts about [generate_text] *)

Ltac relay_unfold :=
  unfold generate_text, dispatch, cloud_branch, local_branch, try_except,
    on_exception, bind, lift, ret, get_cloud_client, Client_chat,
    requests_post, send.

Section RelayFacts.

Variable B : backend.

Lemma truthy_Some (prompt : option string) :
  truthy prompt = true -> exists c p, prompt = Some (String c p).
Proof.
  destruct prompt as [[|c p]|]; simpl; try discriminate. eauto.
Qed.

(** With a prompt, the call is the guarded dispatch. *)
Lemma generate_text_dispatch (p model_name : string) (st : state) :
  truthy (Some p) = true ->
  generate_text B (Some p) model_name st
  = try_except (dispatch B p model_name) on_exception st.
Proof.
  destruct p; simpl; [discriminate | reflexivity].
Qed.

Lemma dispatch_cloud (p model_name : string) :
  Occurs "cloud" model_name ->
  dispatch B p model_name = cloud_branch B p model_name.
Proof.
  intros H. apply str_in_Occurs in H. unfold dispatch. now rewrite H.
Qed.

Lemma dispatch_local (p model_name : string) :
  ~ Occurs "cloud" model_name ->
  dispatch B p model_name = local_branch B p model_name.
Proof.
  intros H. apply str_in_absent in H. unfold dispatch. now rewrite H.
Qed.

Lemma generate_text_cloud (p model_name : string) (st : state) :
  truthy (Some p) = true ->
  Occurs "cloud" model_name ->
  generate_text B (Some p) model_name st
  = try_except (cloud_branch B p model_name) on_exception st.
Proof.
  intros Hp Hoc. rewrite (generate_text_dispatch _ _ _ Hp).
  now rewrite (dispatch_cloud _ _ Hoc).
Qed.

Lemma generate_text_local (p model_name : string) (st : state) :
  truthy (Some p) = true ->
  ~ Occurs "cloud" model_name ->
  generate_text B (Some p) model_name st
  = try_except (local_branch B p model_name) on_exception st.
Proof.
  intros Hp Hno. rewrite (generate_text_dispatch _ _ _ Hp).
  now rewrite (dispatch_local _ _ Hno).
Qed.

(** The cloud branch sends chat requests only (one, or none without a handle). *)
Lemma cloud_branch_wire (p model_name : string) (st : state) :
  exists new,
    wire (snd (try_except (cloud_branch B p model_name) on_exception st))
    = (wire st ++ new)%list
    /\ forallb is_chat new = true.
Proof.
  relay_unfold. destruct (ollama_cloud_client st) as [c|]; simpl.
  - exists [Chat c (str_replace model_name "-cloud" EmptyString)
                 (PList [PDict [("role", PStr "user"); ("content", PStr p)]])].
    split; [|reflexivity].
    destruct (chat_reply B _ _ _ _) as [resp|e]; simpl; [|reflexivity].
    destruct (py_getitem resp "message") as [msg|e]; simpl; [|reflexivity].
    destruct (py_getitem msg "content"); reflexivity.
  - exists []. rewrite app_nil_r. split; reflexivity.
Qed.

(** The local branch sends exactly one POST, whatever comes back. *)
Lemma local_branch_wire (p model_name : string) (st : state) :
  wire (snd (try_except (local_branch B p model_name) on_exception st))
  = (wire st ++ [Post LOCAL_OLLAMA_ENDPOINT
                       (PDict [("model", PStr model_name);
                               ("prompt", PStr p);
                               ("stream", PBool false)])])%list.
Proof.
  relay_unfold. simpl.
  destruct (post_reply B _ _ _) as [r|e]; simpl; [|reflexivity].
  destruct (raise_for_status r) as [[]|e]; simpl; [|reflexivity].
  destruct (json r) as [body|e]; simpl; [|reflexivity].
  destruct (py_in "response" body) as [[|]|e]; simpl; [| |reflexivity].
  - destruct (py_getitem body "response"); reflexivity.
  - destruct (py_in "text" body) as [[|]|e]; simpl; [| |reflexivity].
    + destruct (py_getitem body "text"); reflexivity.
    + reflexivity.
Qed.

(** C2: with an empty or absent prompt, whatever the model identifier,
    [generate_text] returns exactly "Please enter a prompt." and leaves the
    wire as it was: neither backend is contacted. *)
Theorem empty_prompt_short_circuit
    (prompt : option string) (model_name : string) (st : state) :
  truthy prompt = false ->
  generate_text B prompt model_name st
  = (Return (PStr "Please enter a prompt."), st).
Proof.
  destruct prompt as [[|c p]|]; simpl; intros H;
    [reflexivity | discriminate | reflexivity].
Qed.

(** C3: with a non-empty prompt, [generate_text] runs the cloud branch if and
    only if "cloud" occurs in the model identifier, and the local branch if
    and only if it does not; the cloud branch never posts to the local
    endpoint and the local branch always does. *)
Theorem routing_by_marker (p model_name : string) (st : state) :
  truthy (Some p) = true ->
  (Occurs "cloud" model_name <->
   generate_text B (Some p) model_name st
   = try_except (cloud_branch B p model_name) on_exception st)
  /\ (~ Occurs "cloud" model_name <->
      generate_text B (Some p) model_name st
      = try_except (local_branch B p model_name) on_exception st)
  /\ (Occurs "cloud" model_name ->
      exists new,
        wire (snd (generate_text B (Some p) model_name st)) = (wire st ++ new)%list
        /\ forallb is_chat new = true)
  /\ (~ Occurs "cloud" model_name ->
      exists data,
        wire (snd (generate_text B (Some p) model_name st))
        = (wire st ++ [Post LOCAL_OLLAMA_ENDPOINT data])%list).
Proof.
  intros Hp.
  assert (Apart :
    try_except (cloud_branch B p model_name) on_exception st
    <> try_except (local_branch B p model_name) on_exception st).
  { intros E.
    destruct (cloud_branch_wire p model_name st) as (new & Hw & Hc).
    rewrite E, local_branch_wire in Hw.
    apply app_inv_head in Hw. subst new. discriminate Hc. }
  destruct (str_in "cloud" model_name) eqn:Hin.
  - pose proof (proj1 (str_in_Occurs _ _) Hin) as Hoc.
    rewrite (generate_text_cloud _ _ _ Hp Hoc).
    split; [tauto|]. split; [|split].
    + split; [tauto|]. intros E. exfalso. apply Apart. exact E.
    + intros _. apply cloud_branch_wire.
    + tauto.
  - pose proof (proj1 (str_in_absent _ _) Hin) as Hno.
    rewrite (generate_text_local _ _ _ Hp Hno).
    split; [|split; [|split]].
    + split; [tauto|]. intros E. exfalso. apply Apart. symmetry. exact E.
    + tauto.
    + tauto.
    + intros _. eexists. apply local_branch_wire.
Qed.

(** C4 (amended): for every non-empty prompt and every model identifier in
    which "cloud" occurs, when no cloud client handle was established at
    start-up, [generate_text] returns exactly
    "Error: OLLAMA_API_KEY not set in .env file." and sends nothing. *)
Theorem missing_key_message
    (prompt : option string) (model_name : string) (st : state) :
  truthy prompt = true ->
  Occurs "cloud" model_name ->
  ollama_cloud_client st = None ->
  generate_text B prompt model_name st
  = (Return (PStr "Error: OLLAMA_API_KEY not set in .env file."), st).
Proof.
  intros Hp Hoc Hnone.
  destruct (truthy_Some _ Hp) as (c & p & ->).
  rewrite (generate_text_cloud _ _ _ Hp Hoc).
  relay_unfold. rewrite Hnone. reflexivity.
Qed.

(** C8: on the local path (non-empty prompt, no "cloud" in the identifier)
    [generate_text] puts exactly one request on the wire: a POST to
    http://localhost:11434/api/generate whose JSON body is
    {"model": the identifier as given, "prompt": the prompt, "stream": false}. *)
Theorem local_request_shape (p model_name : string) (st : state) :
  truthy (Some p) = true ->
  ~ Occurs "cloud" model_name ->
  wire (snd (generate_text B (Some p) model_name st))
  = (wire st ++ [Post "http://localhost:11434/api/generate"
                      (PDict [("model", PStr model_name);
                              ("prompt", PStr p);
                              ("stream", PBool false)])])%list.
Proof.
  intros Hp Hno. rewrite (generate_text_local _ _ _ Hp Hno).
  apply local_branch_wire.
Qed.

(** What the cloud branch sends when a handle exists. *)
Lemma cloud_branch_sends (p model_name : string) (c : Client) (st : state) :
  ollama_cloud_client st = Some c ->
  wire (snd (try_except (cloud_branch B p model_name) on_exception st))
  = (wire st ++ [Chat c (str_replace model_name "-cloud" EmptyString)
                      (PList [PDict [("role", PStr "user");
                                     ("content", PStr p)]])])%list.
Proof.
  intros Hc. relay_unfold. rewrite Hc. simpl.
  destruct (chat_reply B _ _ _ _) as [resp|e]; simpl; [|reflexivity].
  destruct (py_getitem resp "message") as [msg|e]; simpl; [|reflexivity].
  destruct (py_getitem msg "content"); reflexivity.
Qed.

(** What the cloud branch returns when the reply has the two fields. *)
Lemma cloud_branch_returns
    (p model_name : string) (c : Client) (st : state) (resp msg v : pyval) :
  ollama_cloud_client st = Some c ->
  chat_reply B (wire st) c (str_replace model_name "-cloud" EmptyString)
             (PList [PDict [("role", PStr "user"); ("content", PStr p)]])
  = Return resp ->
  py_getitem resp "message" = Return msg ->
  py_getitem msg "content" = Return v ->
  fst (try_except (cloud_branch B p model_name) on_exception st) = Return v.
Proof.
  intros Hc Hr Hm Hv. relay_unfold. rewrite Hc. cbv beta iota.
  rewrite Hr. cbv beta iota. rewrite Hm. cbv beta iota. rewrite Hv. reflexivity.
Qed.

(** C10: with a non-empty prompt and an identifier in which "cloud" occurs
    but "-cloud" does not, [generate_text] takes the cloud branch, and the
    model name put on the wire is the identifier unchanged. *)
Theorem marker_without_separator (p model_name : string) (st : state) :
  truthy (Some p) = true ->
  Occurs "cloud" model_name ->
  ~ Occurs "-cloud" model_name ->
  generate_text B (Some p) model_name st
  = try_except (cloud_branch B p model_name) on_exception st
  /\ str_replace model_name "-cloud" EmptyString = model_name
  /\ forall c, ollama_cloud_client st = Some c ->
       wire (snd (generate_text B (Some p) model_name st))
       = (wire st ++ [Chat c model_name
                           (PList [PDict [("role", PStr "user");
                                          ("content", PStr p)]])])%list.
Proof.
  intros Hp Hoc Hno.
  assert (Hid : str_replace model_name "-cloud" EmptyString = model_name).
  { apply str_replace_absent. apply str_in_absent. exact Hno. }
  rewrite (generate_text_cloud _ _ _ Hp Hoc).
  split; [reflexivity|]. split; [exact Hid|].
  intros c Hc. rewrite (cloud_branch_sends _ _ _ _ Hc), Hid. reflexivity.
Qed.

(** C5 (amended): on the cloud path with a handle, the model name put on the
    wire is [model_name.replace('-cloud', '')], every occurrence of "-cloud"
    found by the left-to-right scan being removed; where "-cloud" occurs only
    as the trailing suffix this strips just that suffix, and
    "gpt-oss:120b-cloud" gives "gpt-oss:120b".  When the reply has a message
    with a content field, the value returned is that field. *)
Theorem cloud_model_name (p model_name : string) (c : Client) (st : state) :
  truthy (Some p) = true ->
  Occurs "cloud" model_name ->
  ollama_cloud_client st = Some c ->
  wire (snd (generate_text B (Some p) model_name st))
  = (wire st ++ [Chat c (str_replace model_name "-cloud" EmptyString)
                      (PList [PDict [("role", PStr "user");
                                     ("content", PStr p)]])])%list
  /\ (forall x, ~ Occurs "-cloud" x -> model_name = x ++ "-cloud" ->
        str_replace model_name "-cloud" EmptyString = x)
  /\ str_replace "gpt-oss:120b-cloud" "-cloud" EmptyString = "gpt-oss:120b"
  /\ (forall resp msg v,
        chat_reply B (wire st) c (str_replace model_name "-cloud" EmptyString)
                   (PList [PDict [("role", PStr "user"); ("content", PStr p)]])
        = Return resp ->
        py_getitem resp "message" = Return msg ->
        py_getitem msg "content" = Return v ->
        fst (generate_text B (Some p) model_name st) = Return v).
Proof.
  intros Hp Hoc Hc. rewrite (generate_text_cloud _ _ _ Hp Hoc).
  split; [apply cloud_branch_sends; exact Hc|].
  split; [|split; [reflexivity|]].
  - intros x Hx ->. apply replace_trailing_cloud. apply str_in_absent. exact Hx.
  - intros resp msg v. apply cloud_branch_returns. exact Hc.
Qed.

Lemma raise_for_status_below_400 (r : Response) :
  (status_code r < 400)%Z -> raise_for_status r = Return tt.
Proof.
  intros H. unfold raise_for_status.
  destruct (Z.leb_spec 400 (status_code r)); [lia|].
  destruct (Z.leb_spec 500 (status_code r)); [lia|]. reflexivity.
Qed.

Lemma raise_for_status_4xx_5xx (r : Response) :
  (400 <= status_code r < 600)%Z ->
  exists msg, raise_for_status r = Raise (HTTPError msg).
Proof.
  intros H. unfold raise_for_status.
  destruct (Z.leb_spec 400 (status_code r)); [|lia].
  destruct (Z.ltb_spec (status_code r) 500); simpl; [eexists; reflexivity|].
  destruct (Z.leb_spec 500 (status_code r)); [|lia].
  destruct (Z.ltb_spec (status_code r) 600); simpl; [eexists; reflexivity|lia].
Qed.

(** C6 (amended): on the local path, for every 2xx reply whose body parses
    as a JSON object, the result is the value of the field "response" if the
    object has one, else the value of the field "text" if it has one, else the
    text of [str] applied to the whole object; an unrecognised set of keys
    never makes it fail. *)
Theorem local_normalization
    (p model_name : string) (st : state) (r : Response)
    (d : list (string * pyval)) :
  truthy (Some p) = true ->
  ~ Occurs "cloud" model_name ->
  post_reply B (wire st) LOCAL_OLLAMA_ENDPOINT
             (PDict [("model", PStr model_name);
                     ("prompt", PStr p);
                     ("stream", PBool false)]) = Return r ->
  (200 <= status_code r < 300)%Z ->
  json r = Return (PDict d) ->
  fst (generate_text B (Some p) model_name st) = Return (spec_normalize (PDict d)).
Proof.
  intros Hp Hno Hr Hs Hj. rewrite (generate_text_local _ _ _ Hp Hno).
  relay_unfold. cbv beta iota. rewrite Hr. cbv beta iota.
  rewrite raise_for_status_below_400 by lia. cbv beta iota.
  rewrite Hj. unfold spec_normalize, field, py_in, py_getitem. cbv beta iota.
  destruct (dict_get d "response") as [v|]; [reflexivity|].
  cbv beta iota. destruct (dict_get d "text") as [v|]; reflexivity.
Qed.

(** C7 (amended): on the local path, every reply with a 4xx or 5xx status
    (for example 500) is a failure: the result is a string that starts with
    "An error occurred: ". *)
Theorem local_http_error
    (p model_name : string) (st : state) (r : Response) :
  truthy (Some p) = true ->
  ~ Occurs "cloud" model_name ->
  post_reply B (wire st) LOCAL_OLLAMA_ENDPOINT
             (PDict [("model", PStr model_name);
                     ("prompt", PStr p);
                     ("stream", PBool false)]) = Return r ->
  (400 <= status_code r < 600)%Z ->
  exists v, fst (generate_text B (Some p) model_name st) = Return v
            /\ starts_with "An error occurred: " v.
Proof.
  intros Hp Hno Hr Hs. rewrite (generate_text_local _ _ _ Hp Hno).
  destruct (raise_for_status_4xx_5xx r Hs) as [msg Hm].
  relay_unfold. cbv beta iota. rewrite Hr. cbv beta iota.
  rewrite Hm. cbv beta iota.
  eexists. split; [reflexivity|]. exists msg. reflexivity.
Qed.

(** No step of the relay writes the global handle. *)
Lemma generate_text_keeps_client
    (prompt : option string) (model_name : string) (st : state) :
  ollama_cloud_client (snd (generate_text B prompt model_name st))
  = ollama_cloud_client st.
Proof.
  destruct prompt as [[|c0 p]|]; [reflexivity| |reflexivity].
  relay_unfold. cbv beta iota.
  destruct (str_in "cloud" model_name); cbv beta iota.
  - destruct (ollama_cloud_client st) as [c|] eqn:Hc; cbv beta iota;
      [|(simpl; congruence)].
    destruct (chat_reply B _ _ _ _) as [resp|e]; [|(simpl; congruence)].
    cbv beta iota.
    destruct (py_getitem resp "message") as [msg|e]; [|(simpl; congruence)].
    cbv beta iota. destruct (py_getitem msg "content"); (simpl; congruence).
  - destruct (post_reply B _ _ _) as [r|e]; [|(simpl; congruence)]. cbv beta iota.
    destruct (raise_for_status r) as [[]|e]; [|(simpl; congruence)]. cbv beta iota.
    destruct (json r) as [body|e]; [|(simpl; congruence)]. cbv beta iota.
    destruct (py_in "response" body) as [[|]|e]; cbv beta iota; [| |(simpl; congruence)].
    + destruct (py_getitem body "response"); (simpl; congruence).
    + destruct (py_in "text" body) as [[|]|e]; cbv beta iota; [| |(simpl; congruence)].
      * destruct (py_getitem body "text"); (simpl; congruence).
      * (simpl; congruence).
Qed.

(** The result depends on the state only through the handle and through the
    backend's answers. *)
Lemma generate_text_result_ext
    (prompt : option string) (model_name : string) (st st' : state) :
  ollama_cloud_client st = ollama_cloud_client st' ->
  same_replies B (wire st) (wire st') ->
  fst (generate_text B prompt model_name st)
  = fst (generate_text B prompt model_name st').
Proof.
  intros Hc [Hchat Hpost].
  destruct prompt as [[|c0 p]|]; [reflexivity| |reflexivity].
  relay_unfold. cbv beta iota.
  destruct (str_in "cloud" model_name); cbv beta iota.
  - rewrite <- Hc. destruct (ollama_cloud_client st) as [c|]; cbv beta iota;
      [|reflexivity].
    rewrite <- Hchat.
    destruct (chat_reply B _ _ _ _) as [resp|e]; [|reflexivity].
    cbv beta iota.
    destruct (py_getitem resp "message") as [msg|e]; [|reflexivity].
    cbv beta iota. destruct (py_getitem msg "content"); reflexivity.
  - rewrite <- Hpost.
    destruct (post_reply B _ _ _) as [r|e]; [|reflexivity]. cbv beta iota.
    destruct (raise_for_status r) as [[]|e]; [|reflexivity]. cbv beta iota.
    destruct (json r) as [body|e]; [|reflexivity]. cbv beta iota.
    destruct (py_in "response" body) as [[|]|e]; cbv beta iota; [| |reflexivity].
    + destruct (py_getitem body "response"); reflexivity.
    + destruct (py_in "text" body) as [[|]|e]; cbv beta iota; [| |reflexivity].
      * destruct (py_getitem body "text"); reflexivity.
      * reflexivity.
Qed.

(** C9: [generate_text] leaves the global cloud client handle as it found it,
    and a second call with the same prompt and model identifier, against a
    backend that answers as it did the first time, returns the same result:
    nothing but the handle and the backend's answers feeds the result. *)
Theorem idempotent_calls
    (prompt : option string) (model_name : string) (st : state) :
  let first := generate_text B prompt model_name st in
  let second := generate_text B prompt model_name (snd first) in
  ollama_cloud_client (snd first) = ollama_cloud_client st
  /\ ollama_cloud_client (snd second) = ollama_cloud_client st
  /\ (same_replies B (wire st) (wire (snd first)) -> fst second = fst first).
Proof.
  cbv zeta. split; [|split].
  - apply generate_text_keeps_client.
  - now rewrite !generate_text_keeps_client.
  - intros H. symmetry. apply generate_text_result_ext; [|exact H].
    symmetry. apply generate_text_keeps_client.
Qed.

(** C1 (amended): [generate_text] never raises.  Every exception raised
    while dispatching (by the network, by [raise_for_status], by the JSON
    decoder, by a missing field, or anything else) is turned into the
    returned string "An error occurred: " followed by [str] of the exception.
    The value returned is text, except that a field taken from a backend
    reply (the local body's "response" or "text", the cloud message's
    "content") is returned as the backend sent it. *)
Theorem never_raises
    (prompt : option string) (model_name : string) (st : state) :
  (exists v, fst (generate_text B prompt model_name st) = Return v)
  /\ (forall p e,
        prompt = Some p -> truthy prompt = true ->
        fst (dispatch B p model_name st) = Raise e ->
        fst (generate_text B prompt model_name st)
        = Return (PStr ("An error occurred: " ++ exn_str e)))
  /\ (forall v,
        fst (generate_text B prompt model_name st) = Return v ->
        (exists s, v = PStr s)
        \/ (exists p r body k,
              prompt = Some p
              /\ post_reply B (wire st) LOCAL_OLLAMA_ENDPOINT
                            (PDict [("model", PStr model_name);
                                    ("prompt", PStr p);
                                    ("stream", PBool false)]) = Return r
              /\ json r = Return body
              /\ (k = "response" \/ k = "text")
              /\ py_getitem body k = Return v)
        \/ (exists p c resp msg,
              prompt = Some p
              /\ ollama_cloud_client st = Some c
              /\ chat_reply B (wire st) c
                            (str_replace model_name "-cloud" EmptyString)
                            (PList [PDict [("role", PStr "user");
                                           ("content", PStr p)]]) = Return resp
              /\ py_getitem resp "message" = Return msg
              /\ py_getitem msg "content" = Return v)).
Proof.
  split; [|split].
  - destruct prompt as [[|c0 p]|]; [eexists; reflexivity| |eexists; reflexivity].
    unfold generate_text, try_except, on_exception, ret.
    destruct (dispatch B (String c0 p) model_name st) as [[v|e] st'];
      eexists; reflexivity.
  - intros p e -> Hp He. rewrite (generate_text_dispatch _ _ _ Hp).
    unfold try_except, on_exception, ret.
    destruct (dispatch B p model_name st) as [[v|e'] st']; simpl in He.
    + discriminate.
    + injection He as ->. reflexivity.
  - intros v.
    destruct prompt as [[|c0 p]|];
      [intros [= <-]; left; eexists; reflexivity
      | | intros [= <-]; left; eexists; reflexivity].
    relay_unfold. cbv beta iota.
    destruct (str_in "cloud" model_name); cbv beta iota.
    + destruct (ollama_cloud_client st) as [c|] eqn:Hc; cbv beta iota;
        [|intros [= <-]; left; eexists; reflexivity].
      destruct (chat_reply B _ _ _ _) as [resp|e] eqn:Hr;
        [|intros [= <-]; left; eexists; reflexivity].
      cbv beta iota.
      destruct (py_getitem resp "message") as [msg|e] eqn:Hm;
        [|intros [= <-]; left; eexists; reflexivity].
      cbv beta iota.
      destruct (py_getitem msg "content") as [w|e] eqn:Hw;
        [|intros [= <-]; left; eexists; reflexivity].
      intros [= <-]. right; right.
      exists (String c0 p), c, resp, msg. repeat split; auto.
    + destruct (post_reply B _ _ _) as [r|e] eqn:Hr;
        [|intros [= <-]; left; eexists; reflexivity].
      cbv beta iota.
      destruct (raise_for_status r) as [[]|e];
        [|intros [= <-]; left; eexists; reflexivity].
      cbv beta iota.
      destruct (json r) as [body|e] eqn:Hj;
        [|intros [= <-]; left; eexists; reflexivity].
      cbv beta iota.
      destruct (py_in "response" body) as [[|]|e]; cbv beta iota;
        [| |intros [= <-]; left; eexists; reflexivity].
      * destruct (py_getitem body "response") as [w|e] eqn:Hw;
          [|intros [= <-]; left; eexists; reflexivity].
        intros [= <-]. right; left.
        exists (String c0 p), r, body, "response". repeat split; auto.
      * destruct (py_in "text" body) as [[|]|e]; cbv beta iota;
          [| |intros [= <-]; left; eexists; reflexivity].
        -- destruct (py_getitem body "text") as [w|e] eqn:Hw;
             [|intros [= <-]; left; eexists; reflexivity].
           intros [= <-]. right; left.
           exists (String c0 p), r, body, "text". repeat split; auto.
        -- intros [= <-]; left; eexists; reflexivity.
Qed.

End RelayFacts.

(** * The theorems at concrete inputs *)

Module Instances.

Import Sample.

(** The three shapes of a local reply. *)
Example local_reply_response :
  fst (generate_text (local 200 "OK" (PDict [("response", PStr "hello")]))
                     (Some "hi") "gemma:2b" without_key)
  = Return (PStr "hello").
Proof. reflexivity. Qed.

Example local_reply_text :
  fst (generate_text (local 200 "OK" (PDict [("text", PStr "hi")]))
                     (Some "hi") "gemma:2b" without_key)
  = Return (PStr "hi").
Proof. reflexivity. Qed.

Example local_reply_other :
  fst (generate_text
         (local 200 "OK" (PDict [("model", PStr "gemma:2b"); ("done", PBool true);
                                 ("eval_count", PInt 12)]))
         (Some "hi") "gemma:2b" without_key)
  = Return (PStr "{'model': 'gemma:2b', 'done': True, 'eval_count': 12}").
Proof. reflexivity. Qed.

Example local_reply_500 :
  fst (generate_text (local 500 "Internal Server Error" PNone)
                     (Some "hi") "gemma:2b" without_key)
  = Return (PStr ("An error occurred: 500 Server Error: Internal Server Error"
                    ++ " for url: http://localhost:11434/api/generate")).
Proof. reflexivity. Qed.

Example cloud_reply_without_content :
  fst (generate_text (cloud (PDict [("message", PDict [("role", PStr "assistant")])]))
                     (Some "hi") "gpt-oss:120b-cloud" with_key)
  = Return (PStr "An error occurred: 'content'").
Proof. reflexivity. Qed.

(** C1 at a refused connection: the text of the exception comes back. *)
Lemma never_raises_witness :
  fst (generate_text offline (Some "hi") "gemma:2b" without_key)
  = Return (PStr "An error occurred: Connection refused").
Proof.
  apply (proj1 (proj2 (never_raises offline (Some "hi") "gemma:2b" without_key))
               "hi" (RequestException "Connection refused"));
    reflexivity.
Defined.

(** C1 as stated fails: a local reply {"response": 42} makes [generate_text]
    return the number 42, which is not text. *)
Lemma result_not_always_text :
  fst (generate_text (local 200 "OK" (PDict [("response", PInt 42)]))
                     (Some "hi") "gemma:2b" without_key)
  = Return (PInt 42)
  /\ ~ (exists s,
          fst (generate_text (local 200 "OK" (PDict [("response", PInt 42)]))
                             (Some "hi") "gemma:2b" without_key)
          = Return (PStr s)).
Proof.
  split; [reflexivity|]. intros [s H]. vm_compute in H. discriminate H.
Qed.

(** C2 at an absent prompt. *)
Lemma empty_prompt_short_circuit_witness :
  truthy None = false
  /\ generate_text offline None "gpt-oss:120b-cloud" with_key
     = (Return (PStr "Please enter a prompt."), with_key).
Proof.
  split; [reflexivity|]. apply empty_prompt_short_circuit. reflexivity.
Defined.

(** C3 at a local identifier. *)
Lemma routing_by_marker_witness :
  generate_text offline (Some "hi") "gemma:2b" without_key
  = try_except (local_branch offline "hi" "gemma:2b") on_exception without_key.
Proof.
  apply (proj1 (proj1 (proj2 (routing_by_marker offline "hi" "gemma:2b"
                                                 without_key eq_refl)))).
  apply str_in_absent. reflexivity.
Defined.

(** C4 at the dropdown's cloud model, no key. *)
Lemma missing_key_message_witness :
  generate_text offline (Some "hi") "gpt-oss:120b-cloud" without_key
  = (Return (PStr "Error: OLLAMA_API_KEY not set in .env file."), without_key).
Proof.
  apply missing_key_message;
    [reflexivity | apply str_in_Occurs; reflexivity | reflexivity].
Defined.

(** C4 as stated fails at the empty prompt: the prompt guard answers first. *)
Lemma missing_key_message_needs_prompt :
  Occurs "cloud" "gpt-oss:120b-cloud"
  /\ ollama_cloud_client without_key = None
  /\ fst (generate_text offline (Some EmptyString) "gpt-oss:120b-cloud" without_key)
     = Return (PStr "Please enter a prompt.")
  /\ fst (generate_text offline (Some EmptyString) "gpt-oss:120b-cloud" without_key)
     <> Return (PStr "Error: OLLAMA_API_KEY not set in .env file.").
Proof.
  split; [apply str_in_Occurs; reflexivity|].
  split; [reflexivity|]. split; [reflexivity|]. discriminate.
Qed.

(** C5 at the dropdown's cloud model, with a key. *)
Lemma cloud_model_name_witness :
  wire (snd (generate_text (cloud (assistant (PStr "hello")))
                           (Some "hi") "gpt-oss:120b-cloud" with_key))
  = [Chat key_client "gpt-oss:120b"
          (PList [PDict [("role", PStr "user"); ("content", PStr "hi")]])]
  /\ fst (generate_text (cloud (assistant (PStr "hello")))
                        (Some "hi") "gpt-oss:120b-cloud" with_key)
     = Return (PStr "hello").
Proof.
  assert (Hoc : Occurs "cloud" "gpt-oss:120b-cloud")
    by (apply str_in_Occurs; reflexivity).
  pose proof (cloud_model_name (cloud (assistant (PStr "hello"))) "hi"
                "gpt-oss:120b-cloud" key_client with_key
                eq_refl Hoc eq_refl) as (Hw & _ & _ & Hv).
  split.
  - exact Hw.
  - apply (Hv (assistant (PStr "hello"))
              (PDict [("role", PStr "assistant"); ("content", PStr "hello")]));
      reflexivity.
Defined.

(** C5 as stated fails: with "-cloud" both inside and at the end of the
    identifier, both occurrences are removed, not only the trailing one. *)
Lemma inner_marker_also_removed :
  wire (snd (generate_text (cloud (assistant (PStr "hello")))
                           (Some "hi") "gpt-cloud-oss-cloud" with_key))
  = [Chat key_client "gpt-oss"
          (PList [PDict [("role", PStr "user"); ("content", PStr "hi")]])]
  /\ spec_strip_suffix "gpt-cloud-oss-cloud" "-cloud" = "gpt-cloud-oss"
  /\ "gpt-oss" <> spec_strip_suffix "gpt-cloud-oss-cloud" "-cloud".
Proof.
  split; [reflexivity|]. split; [reflexivity|]. discriminate.
Qed.

(** C6 at a body with only the field "text". *)
Lemma local_normalization_witness :
  fst (generate_text (local 200 "OK" (PDict [("done", PBool true); ("text", PStr "hi")]))
                     (Some "hello") "gemma:2b" without_key)
  = Return (PStr "hi").
Proof.
  apply (local_normalization
           (local 200 "OK" (PDict [("done", PBool true); ("text", PStr "hi")]))
           "hello" "gemma:2b" without_key
           {| status_code := 200; reason := "OK";
              url := LOCAL_OLLAMA_ENDPOINT;
              json := Return (PDict [("done", PBool true); ("text", PStr "hi")]) |}
           [("done", PBool true); ("text", PStr "hi")]);
    [reflexivity | apply str_in_absent; reflexivity | reflexivity
    | simpl; lia | reflexivity].
Defined.

(** C6 as stated fails: the body 5 parses as JSON and has neither field, yet
    the result is an error text, not the rendering "5". *)
Lemma non_object_body_fails :
  fst (generate_text (local 200 "OK" (PInt 5)) (Some "hi") "gemma:2b" without_key)
  = Return (PStr "An error occurred: argument of type 'int' is not iterable")
  /\ spec_normalize (PInt 5) = PStr "5"
  /\ fst (generate_text (local 200 "OK" (PInt 5)) (Some "hi") "gemma:2b" without_key)
     <> Return (spec_normalize (PInt 5)).
Proof.
  split; [reflexivity|]. split; [reflexivity|]. discriminate.
Qed.

(** C7 at HTTP 500. *)
Lemma local_http_error_witness :
  exists v,
    fst (generate_text (local 500 "Internal Server Error" PNone)
                       (Some "hi") "gemma:2b" without_key) = Return v
    /\ starts_with "An error occurred: " v.
Proof.
  apply (local_http_error
           (local 500 "Internal Server Error" PNone) "hi" "gemma:2b" without_key
           {| status_code := 500; reason := "Internal Server Error";
              url := LOCAL_OLLAMA_ENDPOINT; json := Return PNone |});
    [reflexivity | apply str_in_absent; reflexivity | reflexivity | simpl; lia].
Defined.

(** C7 as stated fails: status 300 is not 2xx, [raise_for_status] lets it
    pass, and the body's "response" field is returned. *)
Lemma status_300_is_not_a_failure :
  ~ (200 <= 300 < 300)%Z
  /\ fst (generate_text (local 300 "Multiple Choices" (PDict [("response", PStr "hi")]))
                        (Some "hi") "gemma:2b" without_key)
     = Return (PStr "hi")
  /\ ~ starts_with "An error occurred: " (PStr "hi").
Proof.
  split; [lia|]. split; [reflexivity|]. intros [rest H]. discriminate H.
Qed.

(** C8 at a local identifier. *)
Lemma local_request_shape_witness :
  wire (snd (generate_text offline (Some "hi") "gemma:2b" without_key))
  = [Post "http://localhost:11434/api/generate"
          (PDict [("model", PStr "gemma:2b");
                  ("prompt", PStr "hi");
                  ("stream", PBool false)])].
Proof.
  apply (local_request_shape offline "hi" "gemma:2b" without_key);
    [reflexivity | apply str_in_absent; reflexivity].
Defined.

(** C9 with a backend that always gives the same reply. *)
Lemma idempotent_calls_witness :
  fst (generate_text (local 200 "OK" (PDict [("response", PStr "hello")]))
         (Some "hi") "gemma:2b"
         (snd (generate_text (local 200 "OK" (PDict [("response", PStr "hello")]))
                             (Some "hi") "gemma:2b" without_key)))
  = fst (generate_text (local 200 "OK" (PDict [("response", PStr "hello")]))
                       (Some "hi") "gemma:2b" without_key).
Proof.
  apply (idempotent_calls (local 200 "OK" (PDict [("response", PStr "hello")]))
                          (Some "hi") "gemma:2b" without_key).
  split; reflexivity.
Defined.

(** C10 at "cloudmodel". *)
Lemma marker_without_separator_witness :
  wire (snd (generate_text offline (Some "hi") "cloudmodel" with_key))
  = [Chat key_client "cloudmodel"
          (PList [PDict [("role", PStr "user"); ("content", PStr "hi")]])].
Proof.
  apply (marker_without_separator offline "hi" "cloudmodel" with_key);
    [reflexivity | apply str_in_Occurs; reflexivity
    | apply str_in_absent; reflexivity | reflexivity].
Defined.

End Instances.

(** * Error and edge behaviour of one call *)

Section CallFacts.

Variable B : backend.

(** Without a prompt the state comes back as it was. *)
Lemma empty_prompt_short_circuit_state
    (prompt : option string) (model_name : string) (st : state) :
  truthy prompt = false ->
  snd (generate_text B prompt model_name st) = st.
Proof.
  destruct prompt as [[|c p]|]; simpl; intros H;
    [reflexivity | discriminate | reflexivity].
Qed.

Lemma raise_for_status_pass (r : Response) :
  ~ (400 <= status_code r < 600)%Z -> raise_for_status r = Return tt.
Proof.
  intros H. unfold raise_for_status.
  destruct (Z.leb_spec 400 (status_code r));
    destruct (Z.ltb_spec (status_code r) 500);
    destruct (Z.leb_spec 500 (status_code r));
    destruct (Z.ltb_spec (status_code r) 600); simpl; try reflexivity; lia.
Qed.

(** X1: on the local path, when [requests.post] itself raises (connection
    refused, timeout, ...), the result is "An error occurred: " followed by
    [str] of that exception, and the one POST stays on the wire. *)
Theorem local_transport_failure
    (p model_name : string) (st : state) (e : exn) :
  truthy (Some p) = true ->
  ~ Occurs "cloud" model_name ->
  post_reply B (wire st) LOCAL_OLLAMA_ENDPOINT
             (PDict [("model", PStr model_name);
                     ("prompt", PStr p);
                     ("stream", PBool false)]) = Raise e ->
  generate_text B (Some p) model_name st
  = (Return (PStr ("An error occurred: " ++ exn_str e)),
     {| ollama_cloud_client := ollama_cloud_client st;
        wire := (wire st ++ [Post LOCAL_OLLAMA_ENDPOINT
                                  (PDict [("model", PStr model_name);
                                          ("prompt", PStr p);
                                          ("stream", PBool false)])])%list |}).
Proof.
  intros Hp Hno Hr. rewrite (generate_text_local _ _ _ _ Hp Hno).
  relay_unfold. cbv beta iota. rewrite Hr. reflexivity.
Qed.

(** X2: on the local path, when the status is not an error status but the
    body is not JSON, the result is "An error occurred: " followed by the
    decoder's message. *)
Theorem local_malformed_json
    (p model_name : string) (st : state) (r : Response) (e : exn) :
  truthy (Some p) = true ->
  ~ Occurs "cloud" model_name ->
  post_reply B (wire st) LOCAL_OLLAMA_ENDPOINT
             (PDict [("model", PStr model_name);
                     ("prompt", PStr p);
                     ("stream", PBool false)]) = Return r ->
  ~ (400 <= status_code r < 600)%Z ->
  json r = Raise e ->
  fst (generate_text B (Some p) model_name st)
  = Return (PStr ("An error occurred: " ++ exn_str e)).
Proof.
  intros Hp Hno Hr Hs Hj. rewrite (generate_text_local _ _ _ _ Hp Hno).
  relay_unfold. cbv beta iota. rewrite Hr. cbv beta iota.
  rewrite (raise_for_status_pass _ Hs). cbv beta iota. rewrite Hj. reflexivity.
Qed.

(** X3: on the cloud path with a handle, when [chat] raises, the result is
    "An error occurred: " followed by [str] of the exception; the chat request
    was sent once and nothing is posted to the local endpoint. *)
Theorem cloud_call_failure
    (p model_name : string) (c : Client) (st : state) (e : exn) :
  truthy (Some p) = true ->
  Occurs "cloud" model_name ->
  ollama_cloud_client st = Some c ->
  chat_reply B (wire st) c (str_replace model_name "-cloud" EmptyString)
             (PList [PDict [("role", PStr "user"); ("content", PStr p)]])
  = Raise e ->
  generate_text B (Some p) model_name st
  = (Return (PStr ("An error occurred: " ++ exn_str e)),
     {| ollama_cloud_client := ollama_cloud_client st;
        wire := (wire st ++ [Chat c (str_replace model_name "-cloud" EmptyString)
                                  (PList [PDict [("role", PStr "user");
                                                 ("content", PStr p)]])])%list |}).
Proof.
  intros Hp Hoc Hc Hr. rewrite (generate_text_cloud _ _ _ _ Hp Hoc).
  relay_unfold. rewrite Hc. cbv beta iota. rewrite Hr. cbv beta iota.
  rewrite ?Hc. reflexivity.
Qed.

(** X4: on the cloud path, a reply object without "message" gives exactly
    "An error occurred: 'message'", and one whose message object has no
    "content" gives exactly "An error occurred: 'content'": the text of a
    [KeyError] is the quoted key. *)
Theorem cloud_reply_missing_field
    (p model_name : string) (c : Client) (st : state)
    (d : list (string * pyval)) :
  truthy (Some p) = true ->
  Occurs "cloud" model_name ->
  ollama_cloud_client st = Some c ->
  chat_reply B (wire st) c (str_replace model_name "-cloud" EmptyString)
             (PList [PDict [("role", PStr "user"); ("content", PStr p)]])
  = Return (PDict d) ->
  (dict_get d "message" = None ->
   fst (generate_text B (Some p) model_name st)
   = Return (PStr "An error occurred: 'message'"))
  /\ (forall d', dict_get d "message" = Some (PDict d') ->
                 dict_get d' "content" = None ->
      fst (generate_text B (Some p) model_name st)
      = Return (PStr "An error occurred: 'content'")).
Proof.
  intros Hp Hoc Hc Hr. rewrite (generate_text_cloud _ _ _ _ Hp Hoc).
  split.
  - intros Hm. relay_unfold. rewrite Hc. cbv beta iota. rewrite Hr.
    cbv beta iota. unfold py_getitem. rewrite Hm. reflexivity.
  - intros d' Hm Hk. relay_unfold. rewrite Hc. cbv beta iota. rewrite Hr.
    cbv beta iota. unfold py_getitem. rewrite Hm. cbv beta iota.
    rewrite Hk. reflexivity.
Qed.

(** X8: on the local path, every status outside 400..599 is taken as success:
    with an object body the result is the "response" field, else the "text"
    field, else the rendering of the object, for 1xx and 3xx as for 2xx. *)
Theorem local_status_outside_error_range
    (p model_name : string) (st : state) (r : Response)
    (d : list (string * pyval)) :
  truthy (Some p) = true ->
  ~ Occurs "cloud" model_name ->
  post_reply B (wire st) LOCAL_OLLAMA_ENDPOINT
             (PDict [("model", PStr model_name);
                     ("prompt", PStr p);
                     ("stream", PBool false)]) = Return r ->
  ~ (400 <= status_code r < 600)%Z ->
  json r = Return (PDict d) ->
  fst (generate_text B (Some p) model_name st) = Return (spec_normalize (PDict d)).
Proof.
  intros Hp Hno Hr Hs Hj. rewrite (generate_text_local _ _ _ _ Hp Hno).
  relay_unfold. cbv beta iota. rewrite Hr. cbv beta iota.
  rewrite (raise_for_status_pass _ Hs). cbv beta iota.
  rewrite Hj. unfold spec_normalize, field, py_in, py_getitem. cbv beta iota.
  destruct (dict_get d "response") as [v|]; [reflexivity|].
  cbv beta iota. destruct (dict_get d "text") as [v|]; reflexivity.
Qed.

(** What the local branch gives once the body is known. *)
Lemma local_result_of_body
    (p model_name : string) (st : state) (r : Response) (body : pyval) :
  truthy (Some p) = true ->
  ~ Occurs "cloud" model_name ->
  post_reply B (wire st) LOCAL_OLLAMA_ENDPOINT
             (PDict [("model", PStr model_name);
                     ("prompt", PStr p);
                     ("stream", PBool false)]) = Return r ->
  ~ (400 <= status_code r < 600)%Z ->
  json r = Return body ->
  fst (generate_text B (Some p) model_name st)
  = match py_in "response" body with
    | Raise e => Return (PStr ("An error occurred: " ++ exn_str e))
    | Return true =>
        match py_getitem body "response" with
        | Raise e => Return (PStr ("An error occurred: " ++ exn_str e))
        | Return v => Return v
        end
    | Return false =>
        match py_in "text" body with
        | Raise e => Return (PStr ("An error occurred: " ++ exn_str e))
        | Return true =>
            match py_getitem body "text" with
            | Raise e => Return (PStr ("An error occurred: " ++ exn_str e))
            | Return v => Return v
            end
        | Return false => Return (PStr (py_str body))
        end
    end.
Proof.
  intros Hp Hno Hr Hs Hj. rewrite (generate_text_local _ _ _ _ Hp Hno).
  relay_unfold. cbv beta iota. rewrite Hr. cbv beta iota.
  rewrite (raise_for_status_pass _ Hs). cbv beta iota. rewrite Hj.
  cbv beta iota.
  destruct (py_in "response" body) as [[|]|e]; cbv beta iota; [| |reflexivity].
  - destruct (py_getitem body "response"); reflexivity.
  - destruct (py_in "text" body) as [[|]|e]; cbv beta iota; [| |reflexivity].
    + destruct (py_getitem body "text"); reflexivity.
    + reflexivity.
Qed.

Lemma existsb_PStr (k : string) (l : list pyval) :
  existsb (fun x => match x with
                    | PStr s => String.eqb s k
                    | _ => false
                    end) l = true
  <-> In (PStr k) l.
Proof.
  rewrite existsb_exists. split.
  - intros (x & Hin & Hx). destruct x; try discriminate.
    apply String.eqb_eq in Hx. subst. exact Hin.
  - intros Hin. exists (PStr k). split; [exact Hin | apply String.eqb_refl].
Qed.

(** X5: on the local path, a body that parses to null, a boolean or a number
    is never rendered: the membership test raises and the result starts with
    "An error occurred: ". *)
Theorem local_scalar_body
    (p model_name : string) (st : state) (r : Response) (body : pyval) :
  truthy (Some p) = true ->
  ~ Occurs "cloud" model_name ->
  post_reply B (wire st) LOCAL_OLLAMA_ENDPOINT
             (PDict [("model", PStr model_name);
                     ("prompt", PStr p);
                     ("stream", PBool false)]) = Return r ->
  ~ (400 <= status_code r < 600)%Z ->
  json r = Return body ->
  (body = PNone \/ (exists b, body = PBool b) \/ (exists z, body = PInt z)
   \/ (exists f, body = PFloat f)) ->
  exists v, fst (generate_text B (Some p) model_name st) = Return v
            /\ starts_with "An error occurred: " v.
Proof.
  intros Hp Hno Hr Hs Hj Hb.
  rewrite (local_result_of_body _ _ _ _ _ Hp Hno Hr Hs Hj).
  destruct Hb as [->|[[b ->]|[[z ->]|[f ->]]]]; simpl;
    (eexists; split; [reflexivity|]; eexists; reflexivity).
Qed.

(** X6: on the local path, a body that parses to a JSON string is returned
    as it is when neither "response" nor "text" occurs inside it; when one of
    them occurs, subscripting the string raises and the result starts with
    "An error occurred: ". *)
Theorem local_string_body
    (p model_name : string) (st : state) (r : Response) (s : string) :
  truthy (Some p) = true ->
  ~ Occurs "cloud" model_name ->
  post_reply B (wire st) LOCAL_OLLAMA_ENDPOINT
             (PDict [("model", PStr model_name);
                     ("prompt", PStr p);
                     ("stream", PBool false)]) = Return r ->
  ~ (400 <= status_code r < 600)%Z ->
  json r = Return (PStr s) ->
  (~ Occurs "response" s -> ~ Occurs "text" s ->
   fst (generate_text B (Some p) model_name st) = Return (PStr s))
  /\ (Occurs "response" s \/ Occurs "text" s ->
      exists v, fst (generate_text B (Some p) model_name st) = Return v
                /\ starts_with "An error occurred: " v).
Proof.
  intros Hp Hno Hr Hs Hj.
  rewrite (local_result_of_body _ _ _ _ _ Hp Hno Hr Hs Hj).
  unfold py_in, py_getitem. split.
  - intros H1 H2. apply str_in_absent in H1, H2. rewrite H1, H2. reflexivity.
  - intros H. destruct (str_in "response" s) eqn:E1.
    + eexists; split; [reflexivity|]; eexists; reflexivity.
    + destruct H as [H|H]; apply str_in_Occurs in H; [congruence|].
      rewrite H. eexists; split; [reflexivity|]; eexists; reflexivity.
Qed.

(** X7: on the local path, a body that parses to a JSON array is rendered
    with [str] when neither the string "response" nor the string "text" is
    one of its elements; when one of them is, subscripting the list raises and
    the result starts with "An error occurred: ". *)
Theorem local_list_body
    (p model_name : string) (st : state) (r : Response) (l : list pyval) :
  truthy (Some p) = true ->
  ~ Occurs "cloud" model_name ->
  post_reply B (wire st) LOCAL_OLLAMA_ENDPOINT
             (PDict [("model", PStr model_name);
                     ("prompt", PStr p);
                     ("stream", PBool false)]) = Return r ->
  ~ (400 <= status_code r < 600)%Z ->
  json r = Return (PList l) ->
  (~ In (PStr "response") l -> ~ In (PStr "text") l ->
   fst (generate_text B (Some p) model_name st) = Return (PStr (py_str (PList l))))
  /\ (In (PStr "response") l \/ In (PStr "text") l ->
      exists v, fst (generate_text B (Some p) model_name st) = Return v
                /\ starts_with "An error occurred: " v).
Proof.
  intros Hp Hno Hr Hs Hj.
  rewrite (local_result_of_body _ _ _ _ _ Hp Hno Hr Hs Hj).
  unfold py_in, py_getitem.
  pose proof (existsb_PStr "response" l) as E1.
  pose proof (existsb_PStr "text" l) as E2.
  destruct (existsb _ l) eqn:X1 in E1 |- *.
  - split; [intros H; exfalso; apply H, E1; reflexivity|].
    intros _. eexists; split; [reflexivity|]; eexists; reflexivity.
  - destruct (existsb _ l) eqn:X2 in E2 |- *.
    + split; [intros _ H; exfalso; apply H, E2; reflexivity|].
      intros _. eexists; split; [reflexivity|]; eexists; reflexivity.
    + split; [reflexivity|].
      intros [H|H]; [apply E1 in H | apply E2 in H]; discriminate.
Qed.

(** X9: one call puts at most one request on the wire, after the requests
    already there, and that request carries the prompt exactly as given. *)
Theorem at_most_one_request
    (prompt : option string) (model_name : string) (st : state) :
  exists new,
    wire (snd (generate_text B prompt model_name st)) = (wire st ++ new)%list
    /\ length new <= 1
    /\ forall c p, In c new -> prompt = Some p -> carries_prompt p c.
Proof.
  destruct (truthy prompt) eqn:Hp.
  - destruct (truthy_Some _ Hp) as (c0 & q & ->).
    destruct (str_in "cloud" model_name) eqn:Hin.
    + apply str_in_Occurs in Hin.
      rewrite (generate_text_cloud _ _ _ _ Hp Hin).
      destruct (ollama_cloud_client st) as [c|] eqn:Hc.
      * rewrite (cloud_branch_sends _ _ _ _ _ Hc). eexists.
        split; [reflexivity|]. split; [simpl; lia|].
        intros c' p [<-|[]] [= <-]. reflexivity.
      * exists []. rewrite app_nil_r. split; [|split; [simpl; lia|]].
        -- relay_unfold. rewrite Hc. reflexivity.
        -- intros c' p [].
    + apply str_in_absent in Hin.
      rewrite (generate_text_local _ _ _ _ Hp Hin), local_branch_wire.
      eexists. split; [reflexivity|]. split; [simpl; lia|].
      intros c' p [<-|[]] [= <-]. reflexivity.
  - exists []. rewrite app_nil_r.
    rewrite (empty_prompt_short_circuit_state prompt model_name st Hp).
    split; [reflexivity|]. split; [simpl; lia|]. intros c' p [].
Qed.

(** X16: on the local path the cloud handle plays no part: with the same
    requests behind them, a process with a key and one without give the same
    result. *)
Theorem local_result_ignores_key
    (prompt : option string) (model_name : string) (st st' : state) :
  ~ Occurs "cloud" model_name ->
  wire st = wire st' ->
  fst (generate_text B prompt model_name st)
  = fst (generate_text B prompt model_name st').
Proof.
  intros Hno Hw.
  destruct prompt as [[|c0 p]|]; [reflexivity| |reflexivity].
  rewrite (generate_text_local B (String c0 p) model_name st eq_refl Hno).
  rewrite (generate_text_local B (String c0 p) model_name st' eq_refl Hno).
  relay_unfold. cbv beta iota. rewrite <- Hw.
  destruct (post_reply B _ _ _) as [r|e]; [|reflexivity]. cbv beta iota.
  destruct (raise_for_status r) as [[]|e]; [|reflexivity]. cbv beta iota.
  destruct (json r) as [body|e]; [|reflexivity]. cbv beta iota.
  destruct (py_in "response" body) as [[|]|e]; cbv beta iota; [| |reflexivity].
  - destruct (py_getitem body "response"); reflexivity.
  - destruct (py_in "text" body) as [[|]|e]; cbv beta iota; [| |reflexivity].
    + destruct (py_getitem body "text"); reflexivity.
    + reflexivity.
Qed.

End CallFacts.

(** * The model name sent to the cloud (line 45) *)

Module ReplaceFacts.

Lemma strip_prefix_length (q t r : string) :
  strip_prefix q t = Some r ->
  String.length t = String.length q + String.length r.
Proof.
  revert t. induction q as [|b q IH]; intros [|d t] H; simpl in H;
    try discriminate; try (injection H as <-; reflexivity).
  destruct (Ascii.eqb b d); [|discriminate]. apply IH in H. simpl. lia.
Qed.

Lemma str_in_cons (sub : string) (c : ascii) (s : string) :
  str_in sub (String c s)
  = match strip_prefix sub (String c s) with
    | Some _ => true
    | None => str_in sub s
    end.
Proof. reflexivity. Qed.

(** Replacing by the empty string never lengthens, and shortens whenever
    there is an occurrence. *)
Lemma replace_scan_shrinks (a : ascii) (p : string) (n : nat) :
  forall s, String.length s <= n ->
    String.length (replace_scan a p EmptyString s) <= String.length s
    /\ (str_in (String a p) s = true ->
        String.length (replace_scan a p EmptyString s) < String.length s).
Proof.
  induction n as [|n IH]; intros s Hn.
  - destruct s; [|simpl in Hn; lia]. simp replace_scan.
    split; [simpl; lia | discriminate].
  - destruct s as [|c s]; simp replace_scan; [split; [simpl; lia | discriminate]|].
    destruct (inspect (strip_prefix (String a p) (String c s))) as [[r|] E].
    + pose proof (strip_prefix_length _ _ _ E) as HL.
      simpl in HL, Hn.
      destruct (IH r ltac:(lia)) as [Hle _].
      split; [|intros _]; simpl; lia.
    + simpl in Hn.
      destruct (IH s ltac:(lia)) as [Hle Hlt].
      split; [|intros H; rewrite str_in_cons, E in H; specialize (Hlt H)];
        simpl; lia.
Qed.

(** X14: the model name sent to the cloud is never longer than the
    identifier, and it is the identifier itself exactly when "-cloud" does not
    occur in it. *)
Theorem cloud_name_deletes_only (model_name : string) :
  String.length (str_replace model_name "-cloud" EmptyString)
  <= String.length model_name
  /\ (str_replace model_name "-cloud" EmptyString = model_name
      <-> ~ Occurs "-cloud" model_name).
Proof.
  unfold str_replace.
  destruct (replace_scan_shrinks "-" "cloud" _ model_name (Nat.le_refl _))
    as [Hle Hlt].
  split; [exact Hle|]. split.
  - intros E Hoc. apply str_in_Occurs in Hoc. specialize (Hlt Hoc).
    rewrite E in Hlt. lia.
  - intros Hno. apply replace_scan_absent. apply str_in_absent. exact Hno.
Qed.

End ReplaceFacts.

(** * Runs of submissions *)

Section SessionFacts.

Variable B : backend.

Lemma serve_cons (prompt : option string) (model_name : string)
    (rest : list (option string * string)) (st : state) :
  snd (serve B ((prompt, model_name) :: rest) st)
  = snd (serve B rest (snd (generate_text B prompt model_name st))).
Proof.
  simpl. destruct (generate_text B prompt model_name st) as [out st1].
  simpl. destruct (serve B rest st1) as [outs st2]. reflexivity.
Qed.

(** What one call adds to the wire, by cases on the handle and the route. *)
Lemma call_wire (prompt : option string) (model_name : string) (st : state) :
  wire (snd (generate_text B prompt model_name st))
  = (wire st
     ++ if reaches_backend (ollama_cloud_client st) (prompt, model_name)
        then match ollama_cloud_client st with
             | Some c =>
                 if str_in "cloud" model_name
                 then [Chat c (str_replace model_name "-cloud" EmptyString)
                            (PList [PDict [("role", PStr "user");
                                           ("content",
                                            PStr (match prompt with
                                                  | Some p => p
                                                  | None => EmptyString
                                                  end))]])]
                 else [Post LOCAL_OLLAMA_ENDPOINT
                            (PDict [("model", PStr model_name);
                                    ("prompt",
                                     PStr (match prompt with
                                           | Some p => p
                                           | None => EmptyString
                                           end));
                                    ("stream", PBool false)])]
             | None =>
                 [Post LOCAL_OLLAMA_ENDPOINT
                       (PDict [("model", PStr model_name);
                               ("prompt",
                                PStr (match prompt with
                                      | Some p => p
                                      | None => EmptyString
                                      end));
                               ("stream", PBool false)])]
             end
        else [])%list.
Proof.
  unfold reaches_backend. cbn [fst snd].
  destruct (truthy prompt) eqn:Hp; cbn [andb].
  - destruct (truthy_Some _ Hp) as (c0 & q & ->).
    destruct (str_in "cloud" model_name) eqn:Hin; cbn [negb orb].
    + apply str_in_Occurs in Hin.
      rewrite (generate_text_cloud _ _ _ _ Hp Hin).
      destruct (ollama_cloud_client st) as [c|] eqn:Hc.
      * apply cloud_branch_sends. exact Hc.
      * rewrite app_nil_r. relay_unfold. rewrite Hc. reflexivity.
    + apply str_in_absent in Hin.
      rewrite (generate_text_local _ _ _ _ Hp Hin), local_branch_wire.
      destruct (ollama_cloud_client st); reflexivity.
  - rewrite app_nil_r.
    destruct prompt as [[|c0 q]|]; [reflexivity | discriminate | reflexivity].
Qed.

(** X10: however many submissions are served, the cloud handle at the end
    is the one the process started with. *)
Theorem serve_keeps_client
    (submissions : list (option string * string)) (st : state) :
  ollama_cloud_client (snd (serve B submissions st)) = ollama_cloud_client st.
Proof.
  revert st. induction submissions as [|[prompt model_name] rest IH]; intros st.
  - reflexivity.
  - rewrite serve_cons, IH. apply generate_text_keeps_client.
Qed.

(** X13: after a run of submissions the wire has grown by exactly one
    request for every submission with a non-empty prompt, except that
    submissions for a cloud model count only when a handle exists. *)
Theorem serve_request_count
    (submissions : list (option string * string)) (st : state) :
  length (wire (snd (serve B submissions st)))
  = length (wire st)
    + length (filter (reaches_backend (ollama_cloud_client st)) submissions).
Proof.
  revert st. induction submissions as [|[prompt model_name] rest IH]; intros st.
  - simpl. lia.
  - rewrite serve_cons, IH, generate_text_keeps_client, call_wire.
    rewrite length_app. cbn [filter].
    destruct (reaches_backend (ollama_cloud_client st) (prompt, model_name)).
    + destruct (ollama_cloud_client st); [destruct (str_in "cloud" model_name)|];
        simpl; lia.
    + simpl. lia.
Qed.

(** X11: a process started without a key (unset or empty) never sends a chat
    request to the cloud, whatever is submitted and however often. *)
Theorem no_key_no_cloud_traffic
    (api_key : option string) (submissions : list (option string * string)) :
  truthy api_key = false ->
  Forall (fun c => is_chat c = false)
         (wire (snd (serve B submissions (startup api_key)))).
Proof.
  intros Hk.
  assert (Inv : forall subs st,
             ollama_cloud_client st = None ->
             Forall (fun c => is_chat c = false) (wire st) ->
             Forall (fun c => is_chat c = false) (wire (snd (serve B subs st)))).
  { induction subs as [|[prompt model_name] rest IH]; intros st Hc Hw.
    - exact Hw.
    - rewrite serve_cons. apply IH.
      + rewrite generate_text_keeps_client. exact Hc.
      + rewrite call_wire, Hc. apply Forall_app. split; [exact Hw|].
        destruct (reaches_backend None (prompt, model_name));
          repeat constructor. }
  apply Inv.
  - simpl. apply init_cloud_client_without_key. exact Hk.
  - constructor.
Qed.


(** X15: of the models the dropdown offers, only "gpt-oss:120b-cloud" is
    routed to the cloud; the preselected model is one of the offered ones and
    is local. *)
Theorem dropdown_routing :
  (forall m, In m (choices model_dropdown) ->
             (Occurs "cloud" m <-> m = "gpt-oss:120b-cloud"))
  /\ In (value model_dropdown) (choices model_dropdown)
  /\ ~ Occurs "cloud" (value model_dropdown).
Proof.
  split; [|split].
  - intros m Hin. rewrite <- str_in_Occurs. simpl in Hin.
    destruct Hin as [<-|[<-|[<-|[<-|[]]]]];
      (split; [intros H; vm_compute in H; first [discriminate H | reflexivity]
              | intros H; first [discriminate H | reflexivity]]).
  - simpl. auto.
  - apply str_in_absent. reflexivity.
Qed.

End SessionFacts.

(** * The further theorems at concrete inputs *)

Module MoreInstances.

Import Sample.

(** X1 with the local daemon down. *)
Lemma local_transport_failure_witness :
  generate_text offline (Some "hi") "gemma:2b" without_key
  = (Return (PStr "An error occurred: Connection refused"),
     {| ollama_cloud_client := None;
        wire := [Post LOCAL_OLLAMA_ENDPOINT
                      (PDict [("model", PStr "gemma:2b");
                              ("prompt", PStr "hi");
                              ("stream", PBool false)])] |}).
Proof.
  apply (local_transport_failure offline "hi" "gemma:2b" without_key
           (RequestException "Connection refused"));
    [reflexivity | apply str_in_absent; reflexivity | reflexivity].
Defined.

(** X2 with an HTML page served under status 200. *)
Lemma local_malformed_json_witness :
  fst (generate_text
         (fixed (Raise (RequestException "Failed to connect to Ollama."))
                (http 200 "OK" (Raise (JSONDecodeError
                   "Expecting value: line 1 column 1 (char 0)"))))
         (Some "hi") "gemma:2b" without_key)
  = Return (PStr "An error occurred: Expecting value: line 1 column 1 (char 0)").
Proof.
  apply (local_malformed_json _ "hi" "gemma:2b" without_key
           {| status_code := 200; reason := "OK"; url := LOCAL_OLLAMA_ENDPOINT;
              json := Raise (JSONDecodeError
                               "Expecting value: line 1 column 1 (char 0)") |}
           (JSONDecodeError "Expecting value: line 1 column 1 (char 0)"));
    [reflexivity | apply str_in_absent; reflexivity | reflexivity
    | simpl; lia | reflexivity].
Defined.

(** X3 with the cloud service unreachable. *)
Lemma cloud_call_failure_witness :
  fst (generate_text offline (Some "hi") "gpt-oss:120b-cloud" with_key)
  = Return (PStr "An error occurred: Failed to connect to Ollama.").
Proof.
  apply (f_equal fst
           (cloud_call_failure offline "hi" "gpt-oss:120b-cloud" key_client
              with_key (RequestException "Failed to connect to Ollama.")
              eq_refl (proj1 (str_in_Occurs "cloud" "gpt-oss:120b-cloud") eq_refl) eq_refl eq_refl)).
Defined.

(** X4 with a reply that only has an "error" member. *)
Lemma cloud_reply_missing_field_witness :
  fst (generate_text (cloud (PDict [("error", PStr "model not found")]))
                     (Some "hi") "gpt-oss:120b-cloud" with_key)
  = Return (PStr "An error occurred: 'message'").
Proof.
  apply (proj1 (cloud_reply_missing_field
                  (cloud (PDict [("error", PStr "model not found")]))
                  "hi" "gpt-oss:120b-cloud" key_client with_key
                  [("error", PStr "model not found")]
                  eq_refl (proj1 (str_in_Occurs "cloud" "gpt-oss:120b-cloud") eq_refl) eq_refl eq_refl)).
  reflexivity.
Defined.

(** X5 with the body null. *)
Lemma local_scalar_body_witness :
  exists v,
    fst (generate_text (local 200 "OK" PNone) (Some "hi") "gemma:2b" without_key)
    = Return v
    /\ starts_with "An error occurred: " v.
Proof.
  apply (local_scalar_body (local 200 "OK" PNone) "hi" "gemma:2b" without_key
           {| status_code := 200; reason := "OK"; url := LOCAL_OLLAMA_ENDPOINT;
              json := Return PNone |} PNone);
    [reflexivity | apply str_in_absent; reflexivity | reflexivity
    | simpl; lia | reflexivity | left; reflexivity].
Defined.

(** X6 with a plain JSON string as body. *)
Lemma local_string_body_witness :
  fst (generate_text (local 200 "OK" (PStr "pong")) (Some "hi") "gemma:2b"
                     without_key)
  = Return (PStr "pong").
Proof.
  apply (proj1 (local_string_body
                  (local 200 "OK" (PStr "pong")) "hi" "gemma:2b" without_key
                  {| status_code := 200; reason := "OK";
                     url := LOCAL_OLLAMA_ENDPOINT; json := Return (PStr "pong") |}
                  "pong" eq_refl (proj1 (str_in_absent "cloud" "gemma:2b") eq_refl) eq_refl
                  ltac:(simpl; lia) eq_refl));
    apply str_in_absent; reflexivity.
Defined.

(** X7 with an array that has the string "response" among its elements. *)
Lemma local_list_body_witness :
  exists v,
    fst (generate_text (local 200 "OK" (PList [PStr "response"; PInt 1]))
                       (Some "hi") "gemma:2b" without_key) = Return v
    /\ starts_with "An error occurred: " v.
Proof.
  apply (proj2 (local_list_body
                  (local 200 "OK" (PList [PStr "response"; PInt 1]))
                  "hi" "gemma:2b" without_key
                  {| status_code := 200; reason := "OK";
                     url := LOCAL_OLLAMA_ENDPOINT;
                     json := Return (PList [PStr "response"; PInt 1]) |}
                  [PStr "response"; PInt 1]
                  eq_refl (proj1 (str_in_absent "cloud" "gemma:2b") eq_refl) eq_refl
                  ltac:(simpl; lia) eq_refl)).
  left. left. reflexivity.
Defined.

(** X8 with status 304. *)
Lemma local_status_outside_error_range_witness :
  fst (generate_text (local 304 "Not Modified" (PDict [("text", PStr "cached")]))
                     (Some "hi") "gemma:2b" without_key)
  = Return (PStr "cached").
Proof.
  apply (local_status_outside_error_range
           (local 304 "Not Modified" (PDict [("text", PStr "cached")]))
           "hi" "gemma:2b" without_key
           {| status_code := 304; reason := "Not Modified";
              url := LOCAL_OLLAMA_ENDPOINT;
              json := Return (PDict [("text", PStr "cached")]) |}
           [("text", PStr "cached")]);
    [reflexivity | apply str_in_absent; reflexivity | reflexivity
    | simpl; lia | reflexivity].
Defined.

(** X9 on the cloud path with a key. *)
Lemma at_most_one_request_witness :
  exists new,
    wire (snd (generate_text offline (Some "hi") "gpt-oss:120b-cloud" with_key))
    = (wire with_key ++ new)%list
    /\ length new <= 1
    /\ forall c p, In c new -> Some "hi" = Some p -> carries_prompt p c.
Proof.
  exact (at_most_one_request offline (Some "hi") "gpt-oss:120b-cloud" with_key).
Defined.

(** X11 with an empty key and a cloud submission among the others. *)
Lemma no_key_no_cloud_traffic_witness :
  Forall (fun c => is_chat c = false)
         (wire (snd (serve offline
                           [(Some "hi", "gpt-oss:120b-cloud");
                            (Some "hi", "gemma:2b");
                            (None, "phi3:3.8b")]
                           (startup (Some EmptyString))))).
Proof.
  apply no_key_no_cloud_traffic. reflexivity.
Defined.


(** X14 at "cloudmodel". *)
Lemma cloud_name_deletes_only_witness :
  str_replace "cloudmodel" "-cloud" EmptyString = "cloudmodel".
Proof.
  apply (proj2 (ReplaceFacts.cloud_name_deletes_only "cloudmodel")).
  apply str_in_absent. reflexivity.
Defined.

(** X15 at the preselected model. *)
Lemma dropdown_routing_witness :
  Occurs "cloud" "gemma:2b" <-> "gemma:2b" = "gpt-oss:120b-cloud".
Proof.
  apply (proj1 dropdown_routing). left. reflexivity.
Defined.

(** X16 between a process with a key and one without. *)
Lemma local_result_ignores_key_witness :
  fst (generate_text (local 200 "OK" (PDict [("response", PStr "hello")]))
                     (Some "hi") "gemma:2b" with_key)
  = fst (generate_text (local 200 "OK" (PDict [("response", PStr "hello")]))
                       (Some "hi") "gemma:2b" without_key).
Proof.
  apply local_result_ignores_key;
    [apply str_in_absent; reflexivity | reflexivity].
Defined.

(** A run of four submissions with a key: three reach a backend. *)
Example serve_count :
  length (wire (snd (serve offline
                           [(Some "hi", "gemma:2b"); (None, "gemma:2b");
                            (Some "hi", "gpt-oss:120b-cloud");
                            (Some "again", "phi3:3.8b")]
                           with_key))) = 3.
Proof. reflexivity. Qed.

End MoreInstances.
